(** * vlei_verifier_client: request/response translation layer

    A shallow embedding of [src/vlei_verifier_client.py]: the transport
    binding [_VerifierServiceAdapter] and the facade [VerifierClient],
    over an explicit model of what the two classes touch: the [requests]
    calls, the module logger and the parsed JSON of a response. *)

From Stdlib Require Import String Ascii List ZArith Bool Lia.
Import ListNotations.
Open Scope string_scope.

(** ** JSON values

    What [Response.json()] hands back and what [json=] takes: Python
    [None], [bool], [int], [float], [str], [list] and [dict].  A [dict]
    is kept as the list of its items in insertion order, which
    [json.dumps] follows; a [float] is kept as its binary64 bit pattern. *)

#[warnings="-register-all"]
Inductive json : Type :=
| JNull
| JBool (b : bool)
| JInt (n : Z)
| JFloat (bits : Z)
| JStr (s : string)
| JList (items : list json)
| JObj (items : list (string * json)).

(** [d.get(k)] on the items of a dict. *)
Fixpoint dict_lookup (k : string) (items : list (string * json)) : option json :=
  match items with
  | [] => None
  | (k', v) :: rest => if String.eqb k k' then Some v else dict_lookup k rest
  end.

(** ** Exceptions and results *)

Inductive exn : Type :=
| RequestException (what : string)   (* raised by requests.get/put/post *)
| JSONDecodeError                    (* raised by Response.json() *)
| KeyError (key : string)            (* d[k] on a dict without k *)
| TypeError.                         (* v[k] with a str k on a non-dict *)

Inductive result (A : Type) : Type :=
| Ok (a : A)
| Raise (e : exn).
Arguments Ok {A} a.
Arguments Raise {A} e.

(** [v[k]] for a string key [k]: only a dict holding [k] answers. *)
Definition getitem (v : json) (k : string) : result json :=
  match v with
  | JObj items =>
      match dict_lookup k items with
      | Some x => Ok x
      | None => Raise (KeyError k)
      end
  | _ => Raise TypeError
  end.

(** ** The [requests] interface

    A [Request] is the argument list of one call of [requests.get],
    [requests.put] or [requests.post]; a keyword that the call does not
    pass is [None] (for [headers]: the empty dict). *)

Inductive http_method : Type := GET | PUT | POST.

Record Request : Type := mkRequest {
  req_method : http_method;
  req_url : string;
  req_headers : list (string * string);
  req_params : option (list (string * string));
  req_data : option string;
  req_json : option json
}.

(** A [requests.Response], as far as the client reads it: [status_code],
    and the outcome of [json()], [None] when the body does not decode. *)
Record Response : Type := mkResponse {
  status_code : Z;
  json_body : option json
}.

Definition Response_json (res : Response) : result json :=
  match json_body res with
  | Some v => Ok v
  | None => Raise JSONDecodeError
  end.

(** The environment of the client: the remote service behind [requests]
    (its own state, and what one call does to it: a transport failure or
    a response) and [json.dumps]. *)
Class Env : Type := {
  Remote : Type;
  http : Request -> Remote -> Remote * (string + Response);
  dumps : json -> string
}.

(** ** State and the monad of method bodies

    A method body runs on its [self] object and on the world: the records
    handed to the module [logger], the [requests] calls made so far, and
    the remote service. *)

Section Monad.
Context `{Env}.

Record World : Type := mkWorld {
  log : list string;
  sent : list Request;
  remote : Remote
}.

Record St (O : Type) : Type := mkSt {
  self : O;
  world : World
}.
Arguments mkSt {O} _ _.
Arguments self {O} _.
Arguments world {O} _.

Definition M (O A : Type) : Type := St O -> St O * result A.

Definition ret {O A} (a : A) : M O A := fun st => (st, Ok a).

Definition bind {O A B} (m : M O A) (k : A -> M O B) : M O B :=
  fun st =>
    match m st with
    | (st', Ok a) => k a st'
    | (st', Raise e) => (st', Raise e)
    end.

Definition lift {O A} (r : result A) : M O A := fun st => (st, r).

(** Read an attribute of [self]. *)
Definition attr {O A} (f : O -> A) : M O A := fun st => (st, Ok (f (self st))).

(** [logger.info(line)]. *)
Definition logger_info {O} (line : string) : M O unit :=
  fun st =>
    let w := world st in
    (mkSt (self st) (mkWorld (log w ++ [line]) (sent w) (remote w)), Ok tt).

(** One call into [requests]: the call is recorded, the remote service
    moves, and the call returns a response or raises. *)
Definition requests_call {O} (rq : Request) : M O Response :=
  fun st =>
    let w := world st in
    let '(r', out) := http rq (remote w) in
    let st' := mkSt (self st) (mkWorld (log w) (sent w ++ [rq]) r') in
    match out with
    | inr res => (st', Ok res)
    | inl what => (st', Raise (RequestException what))
    end.

(** Run a method of the object stored in attribute [get] of [self];
    whatever the method leaves in its own [self] is what the attribute
    holds afterwards. *)
Definition on_attr {O P A} (get : O -> P) (set : P -> O -> O) (m : M P A) : M O A :=
  fun st =>
    let '(st', r) := m (mkSt (get (self st)) (world st)) in
    (mkSt (set (self st') (self st)) (world st'), r).

End Monad.

Arguments mkSt {_ O} _ _.
Arguments self {_ O} _.
Arguments world {_ O} _.

Declare Scope py_scope.
Delimit Scope py_scope with py.
Notation "x <- m ;; k" := (bind m (fun x => k))
  (at level 61, m at next level, right associativity) : py_scope.
Notation "m ;;; k" := (bind m (fun _ => k))
  (at level 61, right associativity) : py_scope.
Open Scope py_scope.

(** ** Transport binding *)

Module _VerifierServiceAdapter.
Section Adapter.
Context `{Env}.

Record t : Type := mk {
  verifier_base_url : string;
  auths_url : string;
  presentations_url : string;
  reports_url : string;
  verify_signed_headers_url : string;
  verify_signature_url : string;
  add_rot_url : string
}.

Definition default_verifier_base_url : string := "http://localhost:7676".

(** [__init__(self, verifier_base_url="http://localhost:7676")]; [None]
    is a call that leaves the argument out. *)
Definition __init__ (arg : option string) : t :=
  let verifier_base_url :=
    match arg with Some u => u | None => default_verifier_base_url end in
  {| verifier_base_url := verifier_base_url;
     auths_url := verifier_base_url ++ "/authorizations/";
     presentations_url := verifier_base_url ++ "/presentations/";
     reports_url := verifier_base_url ++ "/reports/";
     verify_signed_headers_url := verifier_base_url ++ "/request/verify/";
     verify_signature_url := verifier_base_url ++ "/signature/verify/";
     add_rot_url := verifier_base_url ++ "/root_of_trust/" |}.

Definition check_login_request (aid : string) : M t Response :=
  logger_info ("Check login request sent with: aid = " ++ aid) ;;;
  url <- attr auths_url ;;
  res <- requests_call
           {| req_method := GET;
              req_url := url ++ aid;
              req_headers := [("Content-Type", "application/json")];
              req_params := None; req_data := None; req_json := None |} ;;
  parsed <- lift (Response_json res) ;;
  logger_info ("login status: " ++ dumps parsed) ;;;
  ret res.

Definition credential_presentation_request (said vlei : string) : M t Response :=
  logger_info ("Credential presentation request sent with: said = " ++ said) ;;;
  url <- attr presentations_url ;;
  res <- requests_call
           {| req_method := PUT;
              req_url := url ++ said;
              req_headers := [("Content-Type", "application/json+cesr")];
              req_params := None; req_data := Some vlei; req_json := None |} ;;
  parsed <- lift (Response_json res) ;;
  logger_info ("Credential presentation response for said = " ++ said
               ++ ":  " ++ dumps parsed) ;;;
  ret res.

Definition verify_signed_headers_request (aid sig ser : string) : M t Response :=
  logger_info ("Signed headers verification request sent with aid = " ++ aid
               ++ ", sig = " ++ sig ++ ", ser = " ++ ser) ;;;
  url <- attr verify_signed_headers_url ;;
  res <- requests_call
           {| req_method := POST;
              req_url := url ++ aid;
              req_headers := [];
              req_params := Some [("sig", sig); ("data", ser)];
              req_data := None; req_json := None |} ;;
  parsed <- lift (Response_json res) ;;
  logger_info ("Signed headers verification response for aid = " ++ aid
               ++ ", sig = " ++ sig ++ ", ser = " ++ ser
               ++ ":  " ++ dumps parsed) ;;;
  ret res.

Definition verify_signature_request (signature submitter digest : string)
  : M t Response :=
  logger_info ("Signature verification request sent with signature = " ++ signature
               ++ ", submitter = " ++ submitter ++ ", digest = " ++ digest) ;;;
  let payload := JObj [("signature", JStr signature);
                       ("signer_aid", JStr submitter);
                       ("non_prefixed_digest", JStr digest)] in
  url <- attr verify_signature_url ;;
  res <- requests_call
           {| req_method := POST;
              req_url := url;
              req_headers := [];
              req_params := None; req_data := None;
              req_json := Some payload |} ;;
  ret res.

Definition add_root_of_trust_request (aid vlei oobi : string) : M t Response :=
  logger_info ("Add root of trust request send with: aid = " ++ aid
               ++ ", vlei = " ++ vlei ++ ", oobi = " ++ oobi) ;;;
  let payload := JObj [("vlei", JStr vlei); ("oobi", JStr oobi)] in
  url <- attr add_rot_url ;;
  res <- requests_call
           {| req_method := POST;
              req_url := url ++ aid;
              req_headers := [("Content-Type", "application/json")];
              req_params := None; req_data := None;
              req_json := Some payload |} ;;
  parsed <- lift (Response_json res) ;;
  logger_info ("Add root of trust response for aid = " ++ aid
               ++ ", vlei = " ++ vlei ++ ", oobi = " ++ oobi
               ++ ":  " ++ dumps parsed) ;;;
  ret res.

End Adapter.
End _VerifierServiceAdapter.

(** Modelled from the spec: [VerifierResponse] is imported from
    [src/utils.py], which is not among the sources.  The spec gives the
    Normalized Result three fields: [code], [body] and [message].  The
    facade stores into [message] whatever [res.json()["msg"]] is. *)
Record VerifierResponse : Type := mkVerifierResponse {
  code : Z;
  body : json;
  message : json
}.

(** ** Facade *)

Module VerifierClient.
Section Client.
Context `{Env}.

Record t : Type := mk {
  verifier_base_url : string;
  verifier_service_adapter : _VerifierServiceAdapter.t
}.

Definition default_verifier_base_url : string := "http://localhost:7676".

Definition __init__ (arg : option string) : t :=
  let verifier_base_url :=
    match arg with Some u => u | None => default_verifier_base_url end in
  {| verifier_base_url := verifier_base_url;
     verifier_service_adapter :=
       _VerifierServiceAdapter.__init__ (Some verifier_base_url) |}.

Definition set_adapter (a : _VerifierServiceAdapter.t) (c : t) : t :=
  {| verifier_base_url := verifier_base_url c;
     verifier_service_adapter := a |}.

(** [self.verifier_service_adapter.<method>(...)]. *)
Definition adapter {A} (m : M _VerifierServiceAdapter.t A) : M t A :=
  on_attr verifier_service_adapter set_adapter m.

Definition check_login (aid : string) : M t VerifierResponse :=
  res <- adapter (_VerifierServiceAdapter.check_login_request aid) ;;
  let code := status_code res in
  body <- lift (Response_json res) ;;
  parsed <- lift (Response_json res) ;;
  message <- lift (getitem parsed "msg") ;;
  ret {| code := code; body := body; message := message |}.

Definition login (said vlei : string) : M t VerifierResponse :=
  res <- adapter (_VerifierServiceAdapter.credential_presentation_request said vlei) ;;
  let code := status_code res in
  body <- lift (Response_json res) ;;
  parsed <- lift (Response_json res) ;;
  message <- lift (getitem parsed "msg") ;;
  ret {| code := code; body := body; message := message |}.

Definition verify_signed_headers (aid sig ser : string) : M t VerifierResponse :=
  res <- adapter (_VerifierServiceAdapter.verify_signed_headers_request aid sig ser) ;;
  let code := status_code res in
  body <- lift (Response_json res) ;;
  parsed <- lift (Response_json res) ;;
  message <- lift (getitem parsed "msg") ;;
  ret {| code := code; body := body; message := message |}.

Definition add_root_of_trust (aid vlei oobi : string) : M t VerifierResponse :=
  res <- adapter (_VerifierServiceAdapter.add_root_of_trust_request aid vlei oobi) ;;
  let code := status_code res in
  body <- lift (Response_json res) ;;
  parsed <- lift (Response_json res) ;;
  message <- lift (getitem parsed "msg") ;;
  ret {| code := code; body := body; message := message |}.

Definition verify_signature (signature signer_aid non_prefixed_digest : string)
  : M t VerifierResponse :=
  res <- adapter (_VerifierServiceAdapter.verify_signature_request
                    signature signer_aid non_prefixed_digest) ;;
  let code := status_code res in
  body <- lift (Response_json res) ;;
  parsed <- lift (Response_json res) ;;
  message <- lift (getitem parsed "msg") ;;
  ret {| code := code; body := body; message := message |}.

End Client.
End VerifierClient.

(** ** The five operations as data

    A [Call] names one operation with its arguments; [facade] and
    [binding] dispatch it to the method of that name. *)

Inductive Call : Type :=
| CheckLogin (aid : string)
| Login (said vlei : string)
| VerifySignedHeaders (aid sig ser : string)
| VerifySignature (signature signer_aid non_prefixed_digest : string)
| AddRootOfTrust (aid vlei oobi : string).

Section Harness.
Context `{Env}.

Definition facade (c : Call) : M VerifierClient.t VerifierResponse :=
  match c with
  | CheckLogin aid => VerifierClient.check_login aid
  | Login said vlei => VerifierClient.login said vlei
  | VerifySignedHeaders aid sig ser => VerifierClient.verify_signed_headers aid sig ser
  | VerifySignature s a d => VerifierClient.verify_signature s a d
  | AddRootOfTrust aid vlei oobi => VerifierClient.add_root_of_trust aid vlei oobi
  end.

Definition binding (c : Call) : M _VerifierServiceAdapter.t Response :=
  match c with
  | CheckLogin aid => _VerifierServiceAdapter.check_login_request aid
  | Login said vlei => _VerifierServiceAdapter.credential_presentation_request said vlei
  | VerifySignedHeaders aid sig ser =>
      _VerifierServiceAdapter.verify_signed_headers_request aid sig ser
  | VerifySignature s a d => _VerifierServiceAdapter.verify_signature_request s a d
  | AddRootOfTrust aid vlei oobi =>
      _VerifierServiceAdapter.add_root_of_trust_request aid vlei oobi
  end.

(** A caller that makes the calls of [cs] one after the other on the same
    client, going on after a call that raised. *)
Fixpoint run_calls (cs : list Call) (st : St VerifierClient.t) : St VerifierClient.t :=
  match cs with
  | [] => st
  | c :: rest => run_calls rest (fst (facade c st))
  end.

End Harness.

(** The endpoint table: fixed path, caller-supplied last segment (if any)
    and request of each operation, for a client whose base URL is [base]. *)

Definition endpoint_path (c : Call) : string :=
  match c with
  | CheckLogin _ => "/authorizations/"
  | Login _ _ => "/presentations/"
  | VerifySignedHeaders _ _ _ => "/request/verify/"
  | VerifySignature _ _ _ => "/signature/verify/"
  | AddRootOfTrust _ _ _ => "/root_of_trust/"
  end.

Definition dynamic_segment (c : Call) : option string :=
  match c with
  | CheckLogin aid => Some aid
  | Login said _ => Some said
  | VerifySignedHeaders aid _ _ => Some aid
  | VerifySignature _ _ _ => None
  | AddRootOfTrust aid _ _ => Some aid
  end.

Definition endpoint_url (base : string) (c : Call) : string :=
  match dynamic_segment c with
  | Some id => (base ++ endpoint_path c) ++ id
  | None => base ++ endpoint_path c
  end.

Definition endpoint_request (base : string) (c : Call) : Request :=
  match c with
  | CheckLogin _ =>
      mkRequest GET (endpoint_url base c)
                [("Content-Type", "application/json")] None None None
  | Login _ vlei =>
      mkRequest PUT (endpoint_url base c)
                [("Content-Type", "application/json+cesr")] None (Some vlei) None
  | VerifySignedHeaders _ sig ser =>
      mkRequest POST (endpoint_url base c)
                [] (Some [("sig", sig); ("data", ser)]) None None
  | VerifySignature signature signer_aid non_prefixed_digest =>
      mkRequest POST (endpoint_url base c) [] None None
                (Some (JObj [("signature", JStr signature);
                             ("signer_aid", JStr signer_aid);
                             ("non_prefixed_digest", JStr non_prefixed_digest)]))
  | AddRootOfTrust _ vlei oobi =>
      mkRequest POST (endpoint_url base c)
                [("Content-Type", "application/json")] None None
                (Some (JObj [("vlei", JStr vlei); ("oobi", JStr oobi)]))
  end.

(** The base URL a constructor call ends up with. *)
Definition base_of (arg : option string) : string :=
  match arg with Some u => u | None => "http://localhost:7676" end.

(** The value of field [k] of a parsed body: some value exactly when the
    body is a mapping that has the field. *)
Definition field (k : string) (v : json) : option json :=
  match v with
  | JObj items => dict_lookup k items
  | _ => None
  end.

(** ** URL structure (RFC 3986)

    The path of a URL ends at the first [?] or [#]; its segments are the
    pieces between [/]. *)

Fixpoint take_until (stop : ascii -> bool) (s : string) : string :=
  match s with
  | EmptyString => EmptyString
  | String c rest => if stop c then EmptyString else String c (take_until stop rest)
  end.

Definition ends_path (c : ascii) : bool :=
  Ascii.eqb c "?"%char || Ascii.eqb c "#"%char.

Definition url_path (u : string) : string := take_until ends_path u.

Fixpoint split_on (sep : ascii) (s : string) : list string :=
  match s with
  | EmptyString => [EmptyString]
  | String c rest =>
      if Ascii.eqb c sep then EmptyString :: split_on sep rest
      else match split_on sep rest with
           | seg :: segs => String c seg :: segs
           | [] => [String c EmptyString]
           end
  end.

Definition path_segments (u : string) : list string :=
  split_on "/"%char (url_path u).

Definition last_segment (u : string) : string :=
  last (path_segments u) EmptyString.

Fixpoint contains (c : ascii) (s : string) : bool :=
  match s with
  | EmptyString => false
  | String c' rest => Ascii.eqb c c' || contains c rest
  end.

(** ** Trace lines

    The record each binding operation hands to the logger before its
    request, and the text that precedes [json.dumps(res.json())] in the
    record it logs after it; [verify_signature_request] logs nothing after
    its request. *)

Definition pre_line (c : Call) : string :=
  match c with
  | CheckLogin aid => "Check login request sent with: aid = " ++ aid
  | Login said _ => "Credential presentation request sent with: said = " ++ said
  | VerifySignedHeaders aid sig ser =>
      "Signed headers verification request sent with aid = " ++ aid
      ++ ", sig = " ++ sig ++ ", ser = " ++ ser
  | VerifySignature signature submitter digest =>
      "Signature verification request sent with signature = " ++ signature
      ++ ", submitter = " ++ submitter ++ ", digest = " ++ digest
  | AddRootOfTrust aid vlei oobi =>
      "Add root of trust request send with: aid = " ++ aid
      ++ ", vlei = " ++ vlei ++ ", oobi = " ++ oobi
  end.

Definition post_prefix (c : Call) : option string :=
  match c with
  | CheckLogin _ => Some "login status: "
  | Login said _ =>
      Some ("Credential presentation response for said = " ++ said ++ ":  ")
  | VerifySignedHeaders aid sig ser =>
      Some ("Signed headers verification response for aid = " ++ aid
            ++ ", sig = " ++ sig ++ ", ser = " ++ ser ++ ":  ")
  | VerifySignature _ _ _ => None
  | AddRootOfTrust aid vlei oobi =>
      Some ("Add root of trust response for aid = " ++ aid
            ++ ", vlei = " ++ vlei ++ ", oobi = " ++ oobi ++ ":  ")
  end.

(** ** Sample environments *)

(** A remote service that counts the calls it gets and answers each one
    with [out]; [json.dumps] stands for a fixed text. *)
Definition const_env (out : string + Response) : Env :=
  {| Remote := nat;
     http := fun _ n => (S n, out);
     dumps := fun _ => "<json>" |}.

Definition answer (status : Z) (parsed : option json) : string + Response :=
  inr {| status_code := status; json_body := parsed |}.

Definition ok_env : Env :=
  const_env (answer 200 (Some (JObj [("msg", JStr "ok")]))).

Definition bad_env : Env :=
  const_env (answer 400 (Some (JObj [("msg", JStr "bad")]))).

Definition unavailable_env : Env :=
  const_env (answer 503 (Some (JObj [("msg", JStr "unavailable");
                                     ("retry", JInt 30)]))).

Definition nomsg_env : Env :=
  const_env (answer 200 (Some (JObj [("status", JStr "ok")]))).

Definition nojson_env : Env :=
  const_env (answer 200 None).

(** The world in which nothing has been logged or sent yet. *)
Definition fresh (E : Env) (r : @Remote E) : @World E :=
  {| log := []; sent := []; remote := r |}.

(** ** Outcomes

    What a call leaves in the log after its pre-call line, and what the
    facade makes of the outcome of its request, as functions of that
    outcome. *)

Section Outcome.
Context `{Env}.

Definition post_lines (c : Call) (out : string + Response) : list string :=
  match out with
  | inl _ => []
  | inr res =>
      match json_body res, post_prefix c with
      | Some parsed, Some prefix => [prefix ++ dumps parsed]
      | _, _ => []
      end
  end.

Definition normalized (res : Response) : result VerifierResponse :=
  match json_body res with
  | None => Raise JSONDecodeError
  | Some parsed =>
      match getitem parsed "msg" with
      | Ok m => Ok {| code := status_code res; body := parsed; message := m |}
      | Raise e => Raise e
      end
  end.

Definition outcome_value (out : string + Response) : result VerifierResponse :=
  match out with
  | inl what => Raise (RequestException what)
  | inr res => normalized res
  end.

(** The remote service after it has served the requests [rqs] in order. *)
Definition serve (rqs : list Request) (r : Remote) : Remote :=
  fold_left (fun r rq => fst (http rq r)) rqs r.

End Outcome.

(** A remote service without state that answers every call with [out]. *)
Definition stateless_env (out : string + Response) : Env :=
  {| Remote := unit;
     http := fun _ _ => (tt, out);
     dumps := fun _ => "<json>" |}.

Definition still_env : Env :=
  stateless_env (answer 200 (Some (JObj [("msg", JStr "ok")]))).

Definition refused_env : Env :=
  const_env (inl "connection refused").

(** * Properties *)

Lemma append_assoc (a b c : string) : (a ++ b) ++ c = a ++ (b ++ c).
Proof.
  induction a as [| ch a IH]; cbn; [reflexivity | now rewrite IH].
Qed.

Lemma field_getitem_some (k : string) (v x : json) :
  field k v = Some x -> getitem v k = Ok x.
Proof.
  destruct v; cbn; try discriminate.
  intros ->. reflexivity.
Qed.

Lemma field_getitem_none (k : string) (v : json) :
  field k v = None ->
  getitem v k = Raise (match v with JObj _ => KeyError k | _ => TypeError end).
Proof.
  destruct v; cbn; try reflexivity.
  intros ->. reflexivity.
Qed.

(** No segment of a path holds the separator, and neither cutting a
    string at a stop character nor splitting it brings in a character
    that it did not hold. *)

Lemma take_until_stops (stop : ascii -> bool) (c : ascii) (s : string) :
  stop c = true -> contains c (take_until stop s) = false.
Proof.
  intros Hstop. induction s as [| c' s IH]; cbn; [reflexivity |].
  destruct (stop c') eqn:Hc'; cbn; [reflexivity |].
  rewrite IH, orb_false_r. apply Ascii.eqb_neq. congruence.
Qed.

Lemma take_until_absent (stop : ascii -> bool) (c : ascii) (s : string) :
  contains c s = false -> contains c (take_until stop s) = false.
Proof.
  induction s as [| c' s IH]; cbn; [reflexivity |].
  intros Habs. apply orb_false_elim in Habs as [Hc Hs].
  destruct (stop c'); cbn; [reflexivity |].
  now rewrite Hc, IH.
Qed.

Lemma split_on_nonempty (sep : ascii) (s : string) : split_on sep s <> [].
Proof.
  destruct s as [| c s]; cbn; [discriminate |].
  destruct (Ascii.eqb c sep); [discriminate |].
  destruct (split_on sep s); discriminate.
Qed.

Lemma split_on_no_sep (sep : ascii) (s : string) :
  Forall (fun seg => contains sep seg = false) (split_on sep s).
Proof.
  induction s as [| c s IH]; cbn.
  - constructor; [reflexivity | constructor].
  - destruct (Ascii.eqb c sep) eqn:Hc.
    + constructor; [reflexivity | exact IH].
    + destruct (split_on sep s) as [| seg segs].
      * constructor; [| constructor]. cbn.
        now rewrite Ascii.eqb_sym, Hc.
      * inversion IH as [| ? ? Hseg Hsegs]; subst.
        constructor; [| exact Hsegs]. cbn.
        now rewrite Ascii.eqb_sym, Hc, Hseg.
Qed.

Lemma split_on_absent (c sep : ascii) (s : string) :
  contains c s = false ->
  Forall (fun seg => contains c seg = false) (split_on sep s).
Proof.
  induction s as [| c' s IH]; cbn.
  - intros _. constructor; [reflexivity | constructor].
  - intros Habs. apply orb_false_elim in Habs as [Hc Hs].
    specialize (IH Hs).
    destruct (Ascii.eqb c' sep).
    + constructor; [reflexivity | exact IH].
    + destruct (split_on sep s) as [| seg segs].
      * constructor; [| constructor]. cbn. now rewrite Hc.
      * inversion IH as [| ? ? Hseg Hsegs]; subst.
        constructor; [| exact Hsegs]. cbn. now rewrite Hc, Hseg.
Qed.

Lemma last_Forall {A} (P : A -> Prop) (l : list A) (d : A) :
  l <> [] -> Forall P l -> P (last l d).
Proof.
  induction l as [| x l IH]; [congruence |].
  intros _ Hall. inversion Hall as [| ? ? Hx Hl]; subst.
  destruct l as [| y l]; [exact Hx |].
  apply IH; [discriminate | exact Hl].
Qed.

(** The last path segment of a URL holds neither [/] nor [?]. *)
Lemma last_segment_clean (u : string) :
  contains "/" (last_segment u) = false
  /\ contains "?" (last_segment u) = false.
Proof.
  unfold last_segment, path_segments. split.
  - apply (last_Forall (fun seg => contains "/" seg = false)).
    + apply split_on_nonempty.
    + apply split_on_no_sep.
  - apply (last_Forall (fun seg => contains "?" seg = false)).
    + apply split_on_nonempty.
    + apply split_on_absent. unfold url_path.
      apply take_until_stops. reflexivity.
Qed.

Lemma last_segment_differs (u id : string) :
  contains "/" id || contains "?" id = true -> last_segment u <> id.
Proof.
  intros Hid Heq. destruct (last_segment_clean u) as [Hslash Hquery].
  rewrite Heq in Hslash, Hquery. rewrite Hslash, Hquery in Hid. discriminate.
Qed.

(** Cancelling a common prefix, a path without [?] and [#], and the
    segments of a string that ends in a separator and a clean piece. *)

Lemma append_nil_r (a : string) : a ++ "" = a.
Proof.
  induction a as [| ch a IH]; cbn; [reflexivity | now rewrite IH].
Qed.

Lemma append_inj_l (a b c : string) : a ++ b = a ++ c -> b = c.
Proof.
  induction a as [| ch a IH]; cbn; [trivial |].
  intros Heq. injection Heq as Heq. now apply IH.
Qed.

Lemma contains_append (c : ascii) (a b : string) :
  contains c (a ++ b) = contains c a || contains c b.
Proof.
  induction a as [| ch a IH]; cbn; [reflexivity |].
  now rewrite IH, orb_assoc.
Qed.

Lemma url_path_clean (u : string) :
  contains "?" u = false -> contains "#" u = false -> url_path u = u.
Proof.
  unfold url_path.
  induction u as [| ch u IH]; cbn [take_until contains]; [reflexivity |].
  intros Hq Hh.
  apply orb_false_elim in Hq as [Hq Hqu].
  apply orb_false_elim in Hh as [Hh Hhu].
  assert (Hstop : ends_path ch = false).
  { unfold ends_path.
    now rewrite (Ascii.eqb_sym ch "?"), Hq, (Ascii.eqb_sym ch "#"), Hh. }
  now rewrite Hstop, IH.
Qed.

Lemma split_on_single (sep : ascii) (s : string) :
  contains sep s = false -> split_on sep s = [s].
Proof.
  induction s as [| ch s IH]; cbn; [reflexivity |].
  intros Habs. apply orb_false_elim in Habs as [Hch Hs].
  rewrite Ascii.eqb_sym, Hch, (IH Hs). reflexivity.
Qed.

Lemma split_on_append_sep (sep : ascii) (a b : string) :
  contains sep b = false ->
  exists pre, pre <> [] /\ split_on sep (a ++ String sep b) = (pre ++ [b])%list.
Proof.
  intros Hb. induction a as [| ch a (pre & Hpre & IH)]; cbn.
  - rewrite Ascii.eqb_refl, (split_on_single _ _ Hb).
    exists [EmptyString]. split; [discriminate | reflexivity].
  - destruct (Ascii.eqb ch sep).
    + exists (EmptyString :: pre). split; [discriminate |].
      now rewrite IH.
    + rewrite IH. destruct pre as [| seg segs]; [congruence |].
      exists (String ch seg :: segs). split; [discriminate | reflexivity].
Qed.

Lemma last_segment_of_clean (p id : string) :
  contains "?" p = false -> contains "#" p = false ->
  contains "/" id = false -> contains "?" id = false -> contains "#" id = false ->
  last_segment (p ++ String "/" id) = id.
Proof.
  intros Hpq Hph Hslash Hq Hh.
  unfold last_segment, path_segments.
  rewrite url_path_clean.
  - destruct (split_on_append_sep "/" p id Hslash) as (pre & _ & ->).
    apply last_last.
  - rewrite contains_append, Hpq. cbn. exact Hq.
  - rewrite contains_append, Hph. cbn. exact Hh.
Qed.

Lemma last_segment_no_hash (u : string) :
  contains "#" (last_segment u) = false.
Proof.
  unfold last_segment, path_segments.
  apply (last_Forall (fun seg => contains "#" seg = false)).
  - apply split_on_nonempty.
  - apply split_on_absent. unfold url_path.
    apply take_until_stops. reflexivity.
Qed.

(** The URL of an operation with an identifier: a stem without [?] and
    [#] after the base URL, then [/], then the identifier. *)
Lemma endpoint_url_split (base : string) (c : Call) (id : string) :
  dynamic_segment c = Some id ->
  exists stem,
    endpoint_url base c = (base ++ stem) ++ String "/" id
    /\ contains "?" stem = false /\ contains "#" stem = false.
Proof.
  intros Hid. unfold endpoint_url. rewrite Hid.
  destruct c; try discriminate Hid; cbn [endpoint_path].
  - exists "/authorizations". rewrite !append_assoc. repeat split.
  - exists "/presentations". rewrite !append_assoc. repeat split.
  - exists "/request/verify". rewrite !append_assoc. repeat split.
  - exists "/root_of_trust". rewrite !append_assoc. repeat split.
Qed.

(** No operation's URL goes under [/reports/]. *)
Lemma endpoint_url_not_reports (base : string) (c : Call) (x : string) :
  endpoint_url base c <> (base ++ "/reports/") ++ x.
Proof.
  unfold endpoint_url.
  destruct c; cbn [dynamic_segment endpoint_path];
    rewrite ?append_assoc; intros Heq; apply append_inj_l in Heq;
    cbn in Heq; discriminate Heq.
Qed.

Section Properties.
Context `{Env}.

Lemma init_shape (arg : option string) :
  VerifierClient.__init__ arg =
  VerifierClient.mk (base_of arg)
                    (_VerifierServiceAdapter.__init__ (Some (base_of arg))).
Proof. destruct arg; reflexivity. Qed.

Lemma adapter_init_shape (arg : option string) :
  _VerifierServiceAdapter.__init__ arg =
  _VerifierServiceAdapter.__init__ (Some (base_of arg)).
Proof. destruct arg; reflexivity. Qed.

Ltac unfold_client :=
  cbv [facade binding
       VerifierClient.check_login VerifierClient.login
       VerifierClient.verify_signed_headers VerifierClient.verify_signature
       VerifierClient.add_root_of_trust VerifierClient.adapter
       VerifierClient.set_adapter
       _VerifierServiceAdapter.check_login_request
       _VerifierServiceAdapter.credential_presentation_request
       _VerifierServiceAdapter.verify_signed_headers_request
       _VerifierServiceAdapter.verify_signature_request
       _VerifierServiceAdapter.add_root_of_trust_request
       _VerifierServiceAdapter.__init__
       bind ret lift attr logger_info requests_call on_attr
       endpoint_request endpoint_url endpoint_path dynamic_segment
       pre_line post_prefix] in *;
  cbn [self world log sent remote fst snd
       VerifierClient.verifier_base_url VerifierClient.verifier_service_adapter
       _VerifierServiceAdapter.auths_url _VerifierServiceAdapter.presentations_url
       _VerifierServiceAdapter.verify_signed_headers_url
       _VerifierServiceAdapter.verify_signature_url
       _VerifierServiceAdapter.add_rot_url] in *.

Ltac case_http w :=
  destruct (http _ (remote w)) as [?r [?what | ?res]];
  cbn [fst snd self world log sent remote].

Ltac case_json res :=
  unfold Response_json;
  let E := fresh "Hjson" in
  destruct (json_body res) as [?parsed | ] eqn:E;
  cbn [fst snd self world log sent remote];
  rewrite ?E;
  cbn [fst snd self world log sent remote].

(** What one facade call leaves behind: the same client object, and one
    more [requests] call, the one of the endpoint table. *)
Lemma facade_sends (arg : option string) (w : World) (c : Call) :
  exists w',
    fst (facade c (mkSt (VerifierClient.__init__ arg) w))
      = mkSt (VerifierClient.__init__ arg) w'
    /\ sent w' = (sent w ++ [endpoint_request (base_of arg) c])%list.
Proof.
  rewrite init_shape. generalize (base_of arg) as base. intros base.
  destruct c; unfold_client; case_http w;
    try (case_json res; try destruct (getitem _ _));
    eexists; split; reflexivity.
Qed.

(** The same for a binding call on the adapter alone. *)
Lemma binding_sends (arg : option string) (w : World) (c : Call) :
  exists w',
    fst (binding c (mkSt (_VerifierServiceAdapter.__init__ arg) w))
      = mkSt (_VerifierServiceAdapter.__init__ arg) w'
    /\ sent w' = (sent w ++ [endpoint_request (base_of arg) c])%list.
Proof.
  rewrite adapter_init_shape. generalize (base_of arg) as base. intros base.
  destruct c; unfold_client; case_http w;
    try case_json res;
    eexists; split; reflexivity.
Qed.

(** What a facade call returns once its request got a response. *)
Lemma facade_result (arg : option string) (w : World) (c : Call)
      (r' : Remote) (res : Response) :
  http (endpoint_request (base_of arg) c) (remote w) = (r', inr res) ->
  snd (facade c (mkSt (VerifierClient.__init__ arg) w)) =
  match json_body res with
  | None => Raise JSONDecodeError
  | Some parsed =>
      match getitem parsed "msg" with
      | Ok m => Ok {| code := status_code res; body := parsed; message := m |}
      | Raise e => Raise e
      end
  end.
Proof.
  rewrite init_shape. generalize (base_of arg) as base. intros base Hhttp.
  destruct c; unfold_client; rewrite Hhttp;
    cbn [fst snd self world log sent remote];
    case_json res; try destruct (getitem _ _); reflexivity.
Qed.

(** Any run of calls keeps the client object and adds the requests of the
    endpoint table, one per call and in order. *)
Lemma run_calls_sends (arg : option string) (cs : list Call) :
  forall w : World,
  exists w',
    run_calls cs (mkSt (VerifierClient.__init__ arg) w)
      = mkSt (VerifierClient.__init__ arg) w'
    /\ sent w' = (sent w ++ map (endpoint_request (base_of arg)) cs)%list.
Proof.
  induction cs as [| c cs IH]; intros w; cbn [run_calls map].
  - exists w. split; [reflexivity | now rewrite app_nil_r].
  - destruct (facade_sends arg w c) as (w1 & Hst & Hsent).
    rewrite Hst. destruct (IH w1) as (w2 & Hrun & Hsent2).
    exists w2. split; [exact Hrun |].
    rewrite Hsent2, Hsent, <- app_assoc. reflexivity.
Qed.

Lemma endpoint_request_url (base : string) (c : Call) :
  req_url (endpoint_request base c) = endpoint_url base c.
Proof. destruct c; reflexivity. Qed.

(** Every binding call logs its pre-call line first, whatever follows. *)
Lemma binding_pre_line (arg : option string) (w : World) (c : Call) :
  exists rest : list string,
    log (world (fst (binding c (mkSt (_VerifierServiceAdapter.__init__ arg) w))))
    = (log w ++ pre_line c :: rest)%list.
Proof.
  rewrite adapter_init_shape. generalize (base_of arg) as base. intros base.
  destruct c; unfold_client; case_http w; try case_json res;
    rewrite <- ?app_assoc; eexists; reflexivity.
Qed.

(** C1. For each of the five facade operations: when the operation's HTTP
    call returns a response with status code [s] whose JSON body [b] has a
    [msg] field with value [m], the operation returns the result with
    [code = s], [body = b] and [message = m], and the result has no other
    field. *)
Theorem facade_normalizes (arg : option string) (w : World) (c : Call)
        (r' : Remote) (s : Z) (b m : json) :
  http (endpoint_request (base_of arg) c) (remote w) = (r', answer s (Some b)) ->
  field "msg" b = Some m ->
  snd (facade c (mkSt (VerifierClient.__init__ arg) w))
  = Ok {| code := s; body := b; message := m |}.
Proof.
  intros Hhttp Hmsg.
  rewrite (facade_result _ _ _ _ _ Hhttp). cbn [json_body status_code].
  now rewrite (field_getitem_some _ _ _ Hmsg).
Qed.

(** C2. For each of the five facade operations, a non-2xx status is not
    a local failure: when the remote service answers with any status [s]
    outside 200..299 and a JSON body [b] whose [msg] field is [m], the
    operation raises nothing and returns the result with [code = s],
    [body = b] and [message = m]; in particular an HTTP 400 answer with
    the body [{"msg": "bad"}] gives [code = 400] and [message = "bad"]. *)
Theorem facade_passes_non_2xx (arg : option string) (w : World) (c : Call)
        (r' : Remote) :
  (forall (s : Z) (b m : json),
      (s < 200 \/ 300 <= s)%Z ->
      http (endpoint_request (base_of arg) c) (remote w) = (r', answer s (Some b)) ->
      field "msg" b = Some m ->
      snd (facade c (mkSt (VerifierClient.__init__ arg) w))
      = Ok {| code := s; body := b; message := m |})
  /\ (http (endpoint_request (base_of arg) c) (remote w)
      = (r', answer 400 (Some (JObj [("msg", JStr "bad")]))) ->
      snd (facade c (mkSt (VerifierClient.__init__ arg) w))
      = Ok {| code := 400;
              body := JObj [("msg", JStr "bad")];
              message := JStr "bad" |}).
Proof.
  split.
  - intros s b m _ Hhttp Hmsg.
    rewrite (facade_result _ _ _ _ _ Hhttp). cbn [json_body status_code].
    now rewrite (field_getitem_some _ _ _ Hmsg).
  - intros Hhttp.
    rewrite (facade_result _ _ _ _ _ Hhttp). reflexivity.
Qed.

(** C3. For each of the five facade operations, [verify_signature] among
    them: when the response body is valid JSON without a [msg] field, the
    operation raises ([KeyError] on a mapping, [TypeError] on any other
    JSON value) and returns no result. *)
Theorem facade_fails_without_msg (arg : option string) (w : World) (c : Call)
        (r' : Remote) (res : Response) (b : json) :
  http (endpoint_request (base_of arg) c) (remote w) = (r', inr res) ->
  json_body res = Some b ->
  field "msg" b = None ->
  snd (facade c (mkSt (VerifierClient.__init__ arg) w))
  = Raise (match b with JObj _ => KeyError "msg" | _ => TypeError end).
Proof.
  intros Hhttp Hbody Hmsg.
  rewrite (facade_result _ _ _ _ _ Hhttp), Hbody.
  now rewrite (field_getitem_none _ _ Hmsg).
Qed.

(** C4. For every [aid], [check_login(aid)] makes exactly one [requests]
    call, a GET whose URL is the client's base URL followed by
    [/authorizations/] followed by [aid]. *)
Theorem check_login_get_url (arg : option string) (w : World) (aid : string) :
  let client := VerifierClient.__init__ arg in
  let base := VerifierClient.verifier_base_url client in
  sent (world (fst (VerifierClient.check_login aid (mkSt client w))))
  = (sent w ++
     [ {| req_method := GET;
          req_url := (base ++ "/authorizations/" ++ aid)%string;
          req_headers := [("Content-Type", "application/json")];
          req_params := None; req_data := None; req_json := None |} ])%list.
Proof.
  cbv zeta.
  destruct (facade_sends arg w (CheckLogin aid)) as (w' & Hst & Hsent).
  cbn [facade] in Hst. rewrite Hst. cbn [world]. rewrite Hsent.
  rewrite init_shape. cbn [VerifierClient.verifier_base_url].
  cbv [endpoint_request endpoint_url dynamic_segment endpoint_path].
  now rewrite append_assoc.
Qed.

(** C5. For all argument strings, [verify_signature(signature, signer_aid,
    non_prefixed_digest)] makes exactly one [requests] call, a POST to
    the base URL followed by [/signature/verify/], whose [json] payload is
    the mapping of the three keys [signature], [signer_aid] and
    [non_prefixed_digest] to the three arguments. *)
Theorem verify_signature_post (arg : option string) (w : World)
        (signature signer_aid non_prefixed_digest : string) :
  let client := VerifierClient.__init__ arg in
  let base := VerifierClient.verifier_base_url client in
  sent (world (fst (VerifierClient.verify_signature
                      signature signer_aid non_prefixed_digest (mkSt client w))))
  = (sent w ++
     [ {| req_method := POST;
          req_url := (base ++ "/signature/verify/")%string;
          req_headers := [];
          req_params := None; req_data := None;
          req_json := Some (JObj [("signature", JStr signature);
                                  ("signer_aid", JStr signer_aid);
                                  ("non_prefixed_digest", JStr non_prefixed_digest)])
       |} ])%list.
Proof.
  cbv zeta.
  destruct (facade_sends arg w
              (VerifySignature signature signer_aid non_prefixed_digest))
    as (w' & Hst & Hsent).
  cbn [facade] in Hst. rewrite Hst. cbn [world]. rewrite Hsent.
  rewrite init_shape. reflexivity.
Qed.

(** C6. For all argument strings, [add_root_of_trust(aid, vlei, oobi)]
    makes exactly one [requests] call, a POST to the base URL followed by
    [/root_of_trust/] followed by [aid], whose [json] payload is the
    mapping of the two keys [vlei] and [oobi] to those arguments. *)
Theorem add_root_of_trust_post (arg : option string) (w : World)
        (aid vlei oobi : string) :
  let client := VerifierClient.__init__ arg in
  let base := VerifierClient.verifier_base_url client in
  sent (world (fst (VerifierClient.add_root_of_trust aid vlei oobi (mkSt client w))))
  = (sent w ++
     [ {| req_method := POST;
          req_url := (base ++ "/root_of_trust/" ++ aid)%string;
          req_headers := [("Content-Type", "application/json")];
          req_params := None; req_data := None;
          req_json := Some (JObj [("vlei", JStr vlei); ("oobi", JStr oobi)]) |} ])%list.
Proof.
  cbv zeta.
  destruct (facade_sends arg w (AddRootOfTrust aid vlei oobi)) as (w' & Hst & Hsent).
  cbn [facade] in Hst. rewrite Hst. cbn [world]. rewrite Hsent.
  rewrite init_shape. cbn [VerifierClient.verifier_base_url].
  cbv [endpoint_request endpoint_url dynamic_segment endpoint_path].
  now rewrite append_assoc.
Qed.


(** C8. The base URL is [http://localhost:7676] when the constructor gets
    no argument and the argument otherwise, in the client and in its
    adapter.  No run of operations changes the client object, its base URL
    included, and the URL of every request of the run is that base URL
    followed by the fixed path of the operation (and then by the
    operation's identifier argument, when it has one). *)
Theorem base_url_fixed (arg : option string) (cs : list Call) (w : World) :
  let client := VerifierClient.__init__ arg in
  let base := VerifierClient.verifier_base_url client in
  VerifierClient.verifier_base_url (VerifierClient.__init__ None)
    = "http://localhost:7676"
  /\ base = match arg with Some u => u | None => "http://localhost:7676" end
  /\ _VerifierServiceAdapter.verifier_base_url
       (VerifierClient.verifier_service_adapter client) = base
  /\ self (run_calls cs (mkSt client w)) = client
  /\ map req_url (sent (world (run_calls cs (mkSt client w))))
     = (map req_url (sent w)
        ++ map (fun c =>
                  match dynamic_segment c with
                  | Some id => ((base ++ endpoint_path c) ++ id)%string
                  | None => (base ++ endpoint_path c)%string
                  end) cs)%list.
Proof.
  cbv zeta.
  split; [reflexivity |].
  split; [destruct arg; reflexivity |].
  split; [destruct arg; reflexivity |].
  destruct (run_calls_sends arg cs w) as (w' & Hrun & Hsent).
  rewrite Hrun. cbn [self world]. split; [reflexivity |].
  rewrite Hsent, map_app, map_map.
  f_equal. apply map_ext. intros c.
  rewrite endpoint_request_url, init_shape. reflexivity.
Qed.

(** C9. For every [aid], the GET request of [check_login_request] carries
    the header [Content-Type: application/json] and no body: neither
    [data] nor [json] (nor [params]) is passed. *)
Theorem check_login_request_headers (arg : option string) (w : World)
        (aid : string) :
  exists rq : Request,
    sent (world (fst (_VerifierServiceAdapter.check_login_request aid
                        (mkSt (_VerifierServiceAdapter.__init__ arg) w))))
      = (sent w ++ [rq])%list
    /\ req_method rq = GET
    /\ req_headers rq = [("Content-Type", "application/json")]
    /\ req_params rq = None
    /\ req_data rq = None
    /\ req_json rq = None.
Proof.
  destruct (binding_sends arg w (CheckLogin aid)) as (w' & Hst & Hsent).
  cbn [binding] in Hst. rewrite Hst. cbn [world].
  eexists. split; [exact Hsent |]. cbn. repeat split.
Qed.

(** C10. In every operation with an identifier in its URL ([check_login],
    [login], [verify_signed_headers], [add_root_of_trust]) the URL of the
    request is the base URL, the fixed path and the identifier as the
    caller gave it, character for character; hence for an identifier that
    holds [/] or [?] the last path segment of the request URL is not the
    identifier. *)
Theorem identifier_not_escaped (arg : option string) (w : World) (c : Call)
        (id : string) :
  dynamic_segment c = Some id ->
  let client := VerifierClient.__init__ arg in
  let base := VerifierClient.verifier_base_url client in
  exists rq : Request,
    sent (world (fst (facade c (mkSt client w)))) = (sent w ++ [rq])%list
    /\ req_url rq = (base ++ endpoint_path c ++ id)%string
    /\ (contains "/" id || contains "?" id = true ->
        last_segment (req_url rq) <> id).
Proof.
  intros Hid. cbv zeta.
  destruct (facade_sends arg w c) as (w' & Hst & Hsent).
  rewrite Hst. cbn [world].
  exists (endpoint_request (base_of arg) c).
  split; [exact Hsent |]. split.
  - rewrite endpoint_request_url. unfold endpoint_url. rewrite Hid.
    rewrite init_shape. cbn [VerifierClient.verifier_base_url].
    apply append_assoc.
  - apply last_segment_differs.
Qed.

(** ** The whole effect of one call *)

(** The state a facade call leaves: the same client, the pre-call line and
    what [post_lines] gives, one more request, the remote service after
    that request. *)
Lemma facade_state (arg : option string) (w : World) (c : Call) :
  fst (facade c (mkSt (VerifierClient.__init__ arg) w))
  = mkSt (VerifierClient.__init__ arg)
         {| log := log w ++ pre_line c
                     :: post_lines c (snd (http (endpoint_request (base_of arg) c)
                                                (remote w)));
            sent := sent w ++ [endpoint_request (base_of arg) c];
            remote := fst (http (endpoint_request (base_of arg) c) (remote w)) |}.
Proof.
  rewrite init_shape. generalize (base_of arg) as base. intros base.
  destruct c; unfold post_lines; unfold_client; case_http w;
    try (case_json res; try destruct (getitem _ _));
    rewrite <- ?app_assoc; cbn [app append];
    repeat (progress (rewrite ?append_assoc; cbn [append])); reflexivity.
Qed.

(** The value a facade call returns or the exception it raises. *)
Lemma facade_value (arg : option string) (w : World) (c : Call) :
  snd (facade c (mkSt (VerifierClient.__init__ arg) w))
  = outcome_value (snd (http (endpoint_request (base_of arg) c) (remote w))).
Proof.
  destruct (http (endpoint_request (base_of arg) c) (remote w))
    as [r' [what | res]] eqn:Hhttp; cbn [snd outcome_value].
  - revert Hhttp. rewrite init_shape. generalize (base_of arg) as base.
    intros base Hhttp.
    destruct c; unfold_client; rewrite Hhttp; reflexivity.
  - now rewrite (facade_result _ _ _ _ _ Hhttp).
Qed.

(** The same two for a binding call on the adapter alone. *)
Lemma binding_state (arg : option string) (w : World) (c : Call) :
  fst (binding c (mkSt (_VerifierServiceAdapter.__init__ arg) w))
  = mkSt (_VerifierServiceAdapter.__init__ arg)
         {| log := log w ++ pre_line c
                     :: post_lines c (snd (http (endpoint_request (base_of arg) c)
                                                (remote w)));
            sent := sent w ++ [endpoint_request (base_of arg) c];
            remote := fst (http (endpoint_request (base_of arg) c) (remote w)) |}.
Proof.
  rewrite adapter_init_shape. generalize (base_of arg) as base. intros base.
  destruct c; unfold post_lines; unfold_client; case_http w;
    try case_json res;
    rewrite <- ?app_assoc; cbn [app append];
    repeat (progress (rewrite ?append_assoc; cbn [append])); reflexivity.
Qed.

(** ** Further properties of the two classes *)

(** X1. [login(said, vlei)] makes exactly one [requests] call, whatever
    comes of it: a PUT to the base URL followed by [/presentations/] and
    [said], with the header [Content-Type: application/json+cesr] and
    [vlei] itself as [data]; no [json] and no [params]. *)
Theorem login_put_request (arg : option string) (w : World) (said vlei : string) :
  let client := VerifierClient.__init__ arg in
  let base := VerifierClient.verifier_base_url client in
  sent (world (fst (VerifierClient.login said vlei (mkSt client w))))
  = (sent w ++
     [ {| req_method := PUT;
          req_url := (base ++ "/presentations/" ++ said)%string;
          req_headers := [("Content-Type", "application/json+cesr")];
          req_params := None; req_data := Some vlei; req_json := None |} ])%list.
Proof.
  cbv zeta.
  change (VerifierClient.login said vlei) with (facade (Login said vlei)).
  rewrite facade_state. cbn [world sent].
  rewrite init_shape. cbn [VerifierClient.verifier_base_url].
  cbv [endpoint_request endpoint_url dynamic_segment endpoint_path].
  now rewrite append_assoc.
Qed.

(** X2. [verify_signed_headers(aid, sig, ser)] makes exactly one
    [requests] call, whatever comes of it: a POST to the base URL
    followed by [/request/verify/] and [aid], with [sig] and [ser] as the
    query parameters [sig] and [data], no headers and no body. *)
Theorem verify_signed_headers_post_request (arg : option string) (w : World)
        (aid sig ser : string) :
  let client := VerifierClient.__init__ arg in
  let base := VerifierClient.verifier_base_url client in
  sent (world (fst (VerifierClient.verify_signed_headers aid sig ser
                      (mkSt client w))))
  = (sent w ++
     [ {| req_method := POST;
          req_url := (base ++ "/request/verify/" ++ aid)%string;
          req_headers := [];
          req_params := Some [("sig", sig); ("data", ser)];
          req_data := None; req_json := None |} ])%list.
Proof.
  cbv zeta.
  change (VerifierClient.verify_signed_headers aid sig ser)
    with (facade (VerifySignedHeaders aid sig ser)).
  rewrite facade_state. cbn [world sent].
  rewrite init_shape. cbn [VerifierClient.verifier_base_url].
  cbv [endpoint_request endpoint_url dynamic_segment endpoint_path].
  now rewrite append_assoc.
Qed.

(** X3. When the [requests] call of a facade operation raises, the
    operation raises that same exception; it has logged its pre-call line
    and nothing else, the request counts as made once, and the client is
    unchanged. *)
Theorem facade_transport_failure (arg : option string) (w : World) (c : Call)
        (r' : Remote) (what : string) :
  http (endpoint_request (base_of arg) c) (remote w) = (r', inl what) ->
  facade c (mkSt (VerifierClient.__init__ arg) w)
  = (mkSt (VerifierClient.__init__ arg)
          {| log := log w ++ [pre_line c];
             sent := sent w ++ [endpoint_request (base_of arg) c];
             remote := r' |},
     Raise (RequestException what)).
Proof.
  intros Hhttp.
  rewrite (surjective_pairing (facade c _)).
  rewrite facade_state, facade_value, Hhttp. reflexivity.
Qed.

(** X4. When the response body does not decode as JSON, every facade
    operation raises [JSONDecodeError], whatever the status code, after
    its pre-call line alone; no result is built from the status code. *)
Theorem facade_undecodable_body (arg : option string) (w : World) (c : Call)
        (r' : Remote) (res : Response) :
  http (endpoint_request (base_of arg) c) (remote w) = (r', inr res) ->
  json_body res = None ->
  facade c (mkSt (VerifierClient.__init__ arg) w)
  = (mkSt (VerifierClient.__init__ arg)
          {| log := log w ++ [pre_line c];
             sent := sent w ++ [endpoint_request (base_of arg) c];
             remote := r' |},
     Raise JSONDecodeError).
Proof.
  intros Hhttp Hbody.
  rewrite (surjective_pairing (facade c _)).
  rewrite facade_state, facade_value, Hhttp.
  cbn [fst snd post_lines outcome_value]. unfold normalized.
  rewrite Hbody. reflexivity.
Qed.

(** X5. [verify_signature_request] hands back whatever response its POST
    got, decodable or not, after logging its pre-call line only: it never
    calls [json()] on the response. *)
Theorem verify_signature_request_passthrough (arg : option string) (w : World)
        (signature submitter digest : string) (r' : Remote) (res : Response) :
  http (endpoint_request (base_of arg) (VerifySignature signature submitter digest))
       (remote w) = (r', inr res) ->
  _VerifierServiceAdapter.verify_signature_request signature submitter digest
    (mkSt (_VerifierServiceAdapter.__init__ arg) w)
  = (mkSt (_VerifierServiceAdapter.__init__ arg)
          {| log := log w ++
                    [("Signature verification request sent with signature = "
                      ++ signature ++ ", submitter = " ++ submitter
                      ++ ", digest = " ++ digest)%string];
             sent := sent w ++ [endpoint_request (base_of arg)
                                  (VerifySignature signature submitter digest)];
             remote := r' |},
     Ok res).
Proof.
  rewrite adapter_init_shape. generalize (base_of arg) as base.
  intros base Hhttp.
  unfold_client. rewrite Hhttp. reflexivity.
Qed.

(** X6. In the four binding operations that log the response, a response
    whose body does not decode makes the operation raise
    [JSONDecodeError] from its post-call log statement: the response is
    not handed back, and the log holds the pre-call line only. *)
Theorem binding_undecodable_body (arg : option string) (w : World) (c : Call)
        (r' : Remote) (res : Response) (prefix : string) :
  post_prefix c = Some prefix ->
  http (endpoint_request (base_of arg) c) (remote w) = (r', inr res) ->
  json_body res = None ->
  binding c (mkSt (_VerifierServiceAdapter.__init__ arg) w)
  = (mkSt (_VerifierServiceAdapter.__init__ arg)
          {| log := log w ++ [pre_line c];
             sent := sent w ++ [endpoint_request (base_of arg) c];
             remote := r' |},
     Raise JSONDecodeError).
Proof.
  rewrite adapter_init_shape. generalize (base_of arg) as base.
  intros base Hpost Hhttp Hbody.
  destruct c; unfold_client; try discriminate Hpost;
    rewrite Hhttp;
    cbn [fst snd self world log sent remote];
    unfold Response_json; rewrite Hbody; reflexivity.
Qed.

(** X7. When the [requests] call of a binding operation raises, the
    operation raises that exception after its pre-call line; none of the
    five catches it or logs a second line. *)
Theorem binding_transport_failure (arg : option string) (w : World) (c : Call)
        (r' : Remote) (what : string) :
  http (endpoint_request (base_of arg) c) (remote w) = (r', inl what) ->
  binding c (mkSt (_VerifierServiceAdapter.__init__ arg) w)
  = (mkSt (_VerifierServiceAdapter.__init__ arg)
          {| log := log w ++ [pre_line c];
             sent := sent w ++ [endpoint_request (base_of arg) c];
             remote := r' |},
     Raise (RequestException what)).
Proof.
  rewrite adapter_init_shape. generalize (base_of arg) as base.
  intros base Hhttp.
  destruct c; unfold_client; rewrite Hhttp; reflexivity.
Qed.

(** X8. A facade operation has no effect of its own: the log, the
    requests and the remote service after it are those of the binding
    operation run on the client's adapter, an exception of the binding
    operation comes out unchanged, and a response it returns is turned
    into the result by [json()] and [["msg"]] alone. *)
Theorem facade_is_binding_then_normalize (arg : option string) (w : World)
        (c : Call) :
  let client := VerifierClient.__init__ arg in
  let adapter := VerifierClient.verifier_service_adapter client in
  world (fst (facade c (mkSt client w))) = world (fst (binding c (mkSt adapter w)))
  /\ snd (facade c (mkSt client w))
     = match snd (binding c (mkSt adapter w)) with
       | Ok res => normalized res
       | Raise e => Raise e
       end.
Proof.
  cbv zeta. rewrite init_shape. cbn [VerifierClient.verifier_service_adapter].
  generalize (base_of arg) as base. intros base. unfold normalized.
  destruct c; unfold_client; case_http w;
    try (case_json res; try destruct (getitem _ _));
    split; reflexivity.
Qed.

(** X9. When the body decodes but has no [msg] (or is no mapping), the
    facade operation raises only after everything else is done: the
    request is made, and both log lines of the binding operation (the one
    line of [verify_signature_request]) are in the log. *)
Theorem missing_msg_after_logging (arg : option string) (w : World) (c : Call)
        (r' : Remote) (res : Response) (b : json) :
  http (endpoint_request (base_of arg) c) (remote w) = (r', inr res) ->
  json_body res = Some b ->
  field "msg" b = None ->
  facade c (mkSt (VerifierClient.__init__ arg) w)
  = (mkSt (VerifierClient.__init__ arg)
          {| log := log w ++ pre_line c ::
                      match post_prefix c with
                      | Some prefix => [(prefix ++ dumps b)%string]
                      | None => []
                      end;
             sent := sent w ++ [endpoint_request (base_of arg) c];
             remote := r' |},
     Raise (match b with JObj _ => KeyError "msg" | _ => TypeError end)).
Proof.
  intros Hhttp Hbody Hmsg.
  rewrite (surjective_pairing (facade c _)).
  rewrite facade_state, facade_value, Hhttp.
  cbn [fst snd post_lines outcome_value]. unfold normalized.
  rewrite Hbody, (field_getitem_none _ _ Hmsg). reflexivity.
Qed.

(** X10. A call repeated on a remote service that the request leaves as
    it was gives the same result or exception again, and makes the
    request again: nothing is cached in the client. *)
Theorem repeated_call_same_result (arg : option string) (w : World) (c : Call)
        (out : string + Response) :
  http (endpoint_request (base_of arg) c) (remote w) = (remote w, out) ->
  let st1 := fst (facade c (mkSt (VerifierClient.__init__ arg) w)) in
  snd (facade c st1) = snd (facade c (mkSt (VerifierClient.__init__ arg) w))
  /\ sent (world (fst (facade c st1)))
     = (sent w ++ [endpoint_request (base_of arg) c;
                   endpoint_request (base_of arg) c])%list.
Proof.
  intros Hhttp. cbv zeta.
  rewrite !facade_state, !facade_value. cbn [world sent remote].
  rewrite Hhttp. cbn [fst snd]. rewrite Hhttp.
  split; [reflexivity | now rewrite <- app_assoc].
Qed.

(** X11. A caller that makes the calls [cs] in order, going on after a
    call that raised, makes exactly the requests of [cs], one per call
    and in that order, and leaves the remote service as those requests
    leave it: no call is skipped, retried or merged. *)
Theorem run_calls_serves (arg : option string) (cs : list Call) (w : World) :
  sent (world (run_calls cs (mkSt (VerifierClient.__init__ arg) w)))
  = (sent w ++ map (endpoint_request (base_of arg)) cs)%list
  /\ remote (world (run_calls cs (mkSt (VerifierClient.__init__ arg) w)))
     = serve (map (endpoint_request (base_of arg)) cs) (remote w).
Proof.
  revert w. induction cs as [| c cs IH]; intros w; cbn [run_calls map].
  - cbn. split; [now rewrite app_nil_r | reflexivity].
  - rewrite facade_state.
    match goal with
    | |- context [run_calls cs (mkSt _ ?w1)] => destruct (IH w1) as [Hs Hr]
    end.
    rewrite Hs, Hr. cbn [sent remote]. split.
    + now rewrite <- app_assoc.
    + reflexivity.
Qed.

(** X12. For an operation with an identifier in its URL and a base URL
    without [?] and [#]: the last path segment of the request URL is the
    identifier exactly when the identifier holds none of [/], [?] and
    [#]. *)
Theorem identifier_is_last_segment_iff (arg : option string) (w : World)
        (c : Call) (id : string) :
  dynamic_segment c = Some id ->
  let client := VerifierClient.__init__ arg in
  let base := VerifierClient.verifier_base_url client in
  contains "?" base = false ->
  contains "#" base = false ->
  exists rq : Request,
    sent (world (fst (facade c (mkSt client w)))) = (sent w ++ [rq])%list
    /\ (last_segment (req_url rq) = id
        <-> contains "/" id || contains "?" id || contains "#" id = false).
Proof.
  intros Hid. cbv zeta.
  rewrite facade_state, init_shape.
  cbn [world sent VerifierClient.verifier_base_url].
  generalize (base_of arg) as base. intros base Hbq Hbh.
  eexists. split; [reflexivity |].
  rewrite endpoint_request_url.
  destruct (endpoint_url_split base c id Hid) as (stem & -> & Hsq & Hsh).
  split.
  - intros Hlast.
    destruct (last_segment_clean ((base ++ stem) ++ String "/" id))
      as [Hslash Hquery].
    pose proof (last_segment_no_hash ((base ++ stem) ++ String "/" id)) as Hhash.
    rewrite Hlast in Hslash, Hquery, Hhash.
    now rewrite Hslash, Hquery, Hhash.
  - intros Hclean.
    apply orb_false_elim in Hclean as [Hclean Hhash].
    apply orb_false_elim in Hclean as [Hslash Hquery].
    apply last_segment_of_clean; try assumption.
    + now rewrite contains_append, Hbq, Hsq.
    + now rewrite contains_append, Hbh, Hsh.
Qed.

(** X13. An empty identifier is not refused: the operation makes its one
    request, to the endpoint URL itself (the base URL followed by the
    fixed path). *)
Theorem empty_identifier_requests_endpoint (arg : option string) (w : World)
        (c : Call) :
  dynamic_segment c = Some EmptyString ->
  let client := VerifierClient.__init__ arg in
  let base := VerifierClient.verifier_base_url client in
  map req_url (sent (world (fst (facade c (mkSt client w)))))
  = (map req_url (sent w) ++ [(base ++ endpoint_path c)%string])%list.
Proof.
  intros Hid. cbv zeta.
  rewrite facade_state, init_shape.
  cbn [world sent VerifierClient.verifier_base_url].
  rewrite map_app. cbn [map].
  rewrite endpoint_request_url. unfold endpoint_url. rewrite Hid.
  now rewrite append_nil_r.
Qed.

(** X14. The adapter computes [reports_url] and no operation uses it: in
    any run of calls, no request goes to a URL that starts with
    [reports_url]. *)
Theorem reports_url_never_requested (arg : option string) (cs : list Call)
        (w : World) :
  let client := VerifierClient.__init__ arg in
  let adapter := VerifierClient.verifier_service_adapter client in
  exists new : list Request,
    sent (world (run_calls cs (mkSt client w))) = (sent w ++ new)%list
    /\ Forall (fun rq => forall x : string,
                 req_url rq <> (_VerifierServiceAdapter.reports_url adapter ++ x)%string)
              new.
Proof.
  cbv zeta.
  destruct (run_calls_sends arg cs w) as (w' & -> & Hsent).
  cbn [world]. exists (map (endpoint_request (base_of arg)) cs).
  split; [exact Hsent |].
  apply Forall_forall. intros rq Hin x.
  apply in_map_iff in Hin as (c & <- & _).
  rewrite endpoint_request_url, init_shape.
  cbn [VerifierClient.verifier_service_adapter].
  apply endpoint_url_not_reports.
Qed.

(** X16. [credential_presentation_request] never writes the credential
    to the log: for two payloads [vlei] that the remote service answers
    alike, the log after the call is the same. *)
Theorem login_payload_not_logged (arg : option string) (w : World)
        (said vlei1 vlei2 : string) :
  snd (http (endpoint_request (base_of arg) (Login said vlei1)) (remote w))
  = snd (http (endpoint_request (base_of arg) (Login said vlei2)) (remote w)) ->
  log (world (fst (_VerifierServiceAdapter.credential_presentation_request
                     said vlei1 (mkSt (_VerifierServiceAdapter.__init__ arg) w))))
  = log (world (fst (_VerifierServiceAdapter.credential_presentation_request
                       said vlei2 (mkSt (_VerifierServiceAdapter.__init__ arg) w)))).
Proof.
  intros Hsame.
  change (_VerifierServiceAdapter.credential_presentation_request said vlei1)
    with (binding (Login said vlei1)).
  change (_VerifierServiceAdapter.credential_presentation_request said vlei2)
    with (binding (Login said vlei2)).
  rewrite !binding_state. cbn [world log]. rewrite Hsame. reflexivity.
Qed.

End Properties.

(** * Concrete runs

    Runs on the sample environments, from a fresh world and an object
    built with the default base URL. *)

Example check_login_default_url :
  map req_url
      (sent (world (fst (@VerifierClient.check_login ok_env "EAbc123"
                           (mkSt (VerifierClient.__init__ None) (fresh ok_env 0%nat))))))
  = ["http://localhost:7676/authorizations/EAbc123"].
Proof. reflexivity. Qed.

Example plain_identifier_is_last_segment :
  last_segment "http://localhost:7676/authorizations/EAbc123" = "EAbc123"
  /\ last_segment "http://localhost:7676/authorizations/x/y" = "y"
  /\ last_segment "http://localhost:7676/authorizations/x?y" = "x".
Proof. repeat split. Qed.

Lemma facade_normalizes_witness :
  @http ok_env (endpoint_request (base_of None) (CheckLogin "EAbc123")) 0%nat
  = (1%nat, answer 200 (Some (JObj [("msg", JStr "ok")])))
  /\ field "msg" (JObj [("msg", JStr "ok")]) = Some (JStr "ok")
  /\ snd (@facade ok_env (CheckLogin "EAbc123")
                  (mkSt (VerifierClient.__init__ None) (fresh ok_env 0%nat)))
     = Ok {| code := 200;
             body := JObj [("msg", JStr "ok")];
             message := JStr "ok" |}.
Proof.
  split; [reflexivity |]. split; [reflexivity |].
  apply (@facade_normalizes ok_env None (fresh ok_env 0%nat)
                            (CheckLogin "EAbc123") 1%nat);
    reflexivity.
Defined.

Lemma facade_passes_non_2xx_witness :
  ((503 < 200 \/ 300 <= 503)%Z
   /\ @http unavailable_env
            (endpoint_request (base_of None) (VerifySignature "sig1" "EAid" "deadbeef"))
            0%nat
      = (1%nat, answer 503 (Some (JObj [("msg", JStr "unavailable");
                                        ("retry", JInt 30)])))
   /\ field "msg" (JObj [("msg", JStr "unavailable"); ("retry", JInt 30)])
      = Some (JStr "unavailable")
   /\ snd (@facade unavailable_env (VerifySignature "sig1" "EAid" "deadbeef")
                   (mkSt (VerifierClient.__init__ None) (fresh unavailable_env 0%nat)))
      = Ok {| code := 503;
              body := JObj [("msg", JStr "unavailable"); ("retry", JInt 30)];
              message := JStr "unavailable" |})
  /\ (@http bad_env (endpoint_request (base_of None) (Login "ESaid" "vlei-data")) 0%nat
      = (1%nat, answer 400 (Some (JObj [("msg", JStr "bad")])))
      /\ snd (@facade bad_env (Login "ESaid" "vlei-data")
                      (mkSt (VerifierClient.__init__ None) (fresh bad_env 0%nat)))
         = Ok {| code := 400;
                 body := JObj [("msg", JStr "bad")];
                 message := JStr "bad" |}).
Proof.
  split.
  - split; [right; lia |]. split; [reflexivity |]. split; [reflexivity |].
    apply (proj1 (@facade_passes_non_2xx
                    unavailable_env None (fresh unavailable_env 0%nat)
                    (VerifySignature "sig1" "EAid" "deadbeef") 1%nat));
      [right; lia | reflexivity | reflexivity].
  - split; [reflexivity |].
    apply (proj2 (@facade_passes_non_2xx
                    bad_env None (fresh bad_env 0%nat)
                    (Login "ESaid" "vlei-data") 1%nat)).
    reflexivity.
Defined.

Lemma facade_fails_without_msg_witness :
  @http nomsg_env
        (endpoint_request (base_of None) (VerifySignature "sig1" "EAid" "deadbeef"))
        0%nat
  = (1%nat, answer 200 (Some (JObj [("status", JStr "ok")])))
  /\ field "msg" (JObj [("status", JStr "ok")]) = None
  /\ snd (@facade nomsg_env (VerifySignature "sig1" "EAid" "deadbeef")
                  (mkSt (VerifierClient.__init__ None) (fresh nomsg_env 0%nat)))
     = Raise (KeyError "msg").
Proof.
  split; [reflexivity |]. split; [reflexivity |].
  apply (@facade_fails_without_msg
           nomsg_env None (fresh nomsg_env 0%nat)
           (VerifySignature "sig1" "EAid" "deadbeef") 1%nat
           {| status_code := 200; json_body := Some (JObj [("status", JStr "ok")]) |}
           (JObj [("status", JStr "ok")]));
    reflexivity.
Defined.



Lemma identifier_not_escaped_witness :
  dynamic_segment (CheckLogin "x/y") = Some "x/y"
  /\ exists rq : Request,
       sent (world (fst (@facade ok_env (CheckLogin "x/y")
                           (mkSt (VerifierClient.__init__ None) (fresh ok_env 0%nat)))))
       = [rq]
       /\ req_url rq = "http://localhost:7676/authorizations/x/y"
       /\ last_segment (req_url rq) <> "x/y".
Proof.
  split; [reflexivity |].
  destruct (@identifier_not_escaped ok_env None (fresh ok_env 0%nat)
                                    (CheckLogin "x/y") "x/y" eq_refl)
    as (rq & Hsent & Hurl & Hlast).
  exists rq. split; [exact Hsent |]. split; [exact Hurl |].
  apply Hlast. reflexivity.
Defined.

(** * Independence from the log

    X15. What a facade operation returns or raises, and what it does to
    the remote service, do not depend on [json.dumps], on what has been
    logged or on the requests made before: they are the same under two
    [json.dumps] functions and from two worlds whose remote service is in
    the same state. *)
Theorem facade_result_frame
        (R : Type) (h : Request -> R -> R * (string + Response))
        (d1 d2 : json -> string) (arg : option string) (c : Call)
        (l1 l2 : list string) (s1 s2 : list Request) (r : R) :
  let E1 := {| Remote := R; http := h; dumps := d1 |} in
  let E2 := {| Remote := R; http := h; dumps := d2 |} in
  let st1 := mkSt (VerifierClient.__init__ arg) (@mkWorld E1 l1 s1 r) in
  let st2 := mkSt (VerifierClient.__init__ arg) (@mkWorld E2 l2 s2 r) in
  snd (@facade E1 c st1) = snd (@facade E2 c st2)
  /\ @remote E1 (world (fst (@facade E1 c st1)))
     = @remote E2 (world (fst (@facade E2 c st2))).
Proof.
  cbv zeta. rewrite !facade_value, !facade_state. split; reflexivity.
Qed.

(** * Concrete runs of the further properties *)

Lemma facade_transport_failure_witness :
  @http refused_env (endpoint_request (base_of None) (CheckLogin "EAbc123")) 0%nat
  = (1%nat, inl "connection refused")
  /\ @facade refused_env (CheckLogin "EAbc123")
             (mkSt (VerifierClient.__init__ None) (fresh refused_env 0%nat))
     = (mkSt (VerifierClient.__init__ None)
             (@mkWorld refused_env
                ["Check login request sent with: aid = EAbc123"]
                [endpoint_request "http://localhost:7676" (CheckLogin "EAbc123")]
                1%nat),
        Raise (RequestException "connection refused")).
Proof.
  split; [reflexivity |].
  apply (@facade_transport_failure refused_env None (fresh refused_env 0%nat)
                                   (CheckLogin "EAbc123") 1%nat "connection refused").
  reflexivity.
Defined.

Lemma facade_undecodable_body_witness :
  @http nojson_env
        (endpoint_request (base_of None) (VerifySignature "sig1" "EAid" "deadbeef"))
        0%nat
  = (1%nat, answer 200 None)
  /\ json_body {| status_code := 200; json_body := None |} = None
  /\ @facade nojson_env (VerifySignature "sig1" "EAid" "deadbeef")
             (mkSt (VerifierClient.__init__ None) (fresh nojson_env 0%nat))
     = (mkSt (VerifierClient.__init__ None)
             (@mkWorld nojson_env
                ["Signature verification request sent with signature = sig1, submitter = EAid, digest = deadbeef"]
                [endpoint_request "http://localhost:7676"
                                  (VerifySignature "sig1" "EAid" "deadbeef")]
                1%nat),
        Raise JSONDecodeError).
Proof.
  split; [reflexivity |]. split; [reflexivity |].
  apply (@facade_undecodable_body
           nojson_env None (fresh nojson_env 0%nat)
           (VerifySignature "sig1" "EAid" "deadbeef") 1%nat
           {| status_code := 200; json_body := None |});
    reflexivity.
Defined.

Lemma verify_signature_request_passthrough_witness :
  @http nojson_env
        (endpoint_request (base_of None) (VerifySignature "sig1" "EAid" "deadbeef"))
        0%nat
  = (1%nat, answer 200 None)
  /\ snd (@_VerifierServiceAdapter.verify_signature_request
            nojson_env "sig1" "EAid" "deadbeef"
            (mkSt (_VerifierServiceAdapter.__init__ None) (fresh nojson_env 0%nat)))
     = Ok {| status_code := 200; json_body := None |}.
Proof.
  split; [reflexivity |].
  rewrite (@verify_signature_request_passthrough
             nojson_env None (fresh nojson_env 0%nat) "sig1" "EAid" "deadbeef"
             1%nat {| status_code := 200; json_body := None |} eq_refl).
  reflexivity.
Defined.

Lemma binding_undecodable_body_witness :
  post_prefix (Login "ESaid" "vlei-data")
  = Some "Credential presentation response for said = ESaid:  "
  /\ @http nojson_env (endpoint_request (base_of None) (Login "ESaid" "vlei-data"))
           0%nat
     = (1%nat, answer 200 None)
  /\ @binding nojson_env (Login "ESaid" "vlei-data")
              (mkSt (_VerifierServiceAdapter.__init__ None) (fresh nojson_env 0%nat))
     = (mkSt (_VerifierServiceAdapter.__init__ None)
             (@mkWorld nojson_env
                ["Credential presentation request sent with: said = ESaid"]
                [endpoint_request "http://localhost:7676" (Login "ESaid" "vlei-data")]
                1%nat),
        Raise JSONDecodeError).
Proof.
  split; [reflexivity |]. split; [reflexivity |].
  apply (@binding_undecodable_body
           nojson_env None (fresh nojson_env 0%nat) (Login "ESaid" "vlei-data")
           1%nat {| status_code := 200; json_body := None |}
           "Credential presentation response for said = ESaid:  ");
    reflexivity.
Defined.

Lemma binding_transport_failure_witness :
  @http refused_env
        (endpoint_request (base_of None) (VerifySignedHeaders "EAid" "sig1" "ser1"))
        0%nat
  = (1%nat, inl "connection refused")
  /\ @binding refused_env (VerifySignedHeaders "EAid" "sig1" "ser1")
              (mkSt (_VerifierServiceAdapter.__init__ None) (fresh refused_env 0%nat))
     = (mkSt (_VerifierServiceAdapter.__init__ None)
             (@mkWorld refused_env
                ["Signed headers verification request sent with aid = EAid, sig = sig1, ser = ser1"]
                [endpoint_request "http://localhost:7676"
                                  (VerifySignedHeaders "EAid" "sig1" "ser1")]
                1%nat),
        Raise (RequestException "connection refused")).
Proof.
  split; [reflexivity |].
  apply (@binding_transport_failure
           refused_env None (fresh refused_env 0%nat)
           (VerifySignedHeaders "EAid" "sig1" "ser1") 1%nat "connection refused").
  reflexivity.
Defined.

Lemma missing_msg_after_logging_witness :
  @http nomsg_env
        (endpoint_request (base_of None) (AddRootOfTrust "EAid" "vlei-data" "http://oobi"))
        0%nat
  = (1%nat, answer 200 (Some (JObj [("status", JStr "ok")])))
  /\ field "msg" (JObj [("status", JStr "ok")]) = None
  /\ @facade nomsg_env (AddRootOfTrust "EAid" "vlei-data" "http://oobi")
             (mkSt (VerifierClient.__init__ None) (fresh nomsg_env 0%nat))
     = (mkSt (VerifierClient.__init__ None)
             (@mkWorld nomsg_env
                ["Add root of trust request send with: aid = EAid, vlei = vlei-data, oobi = http://oobi";
                 "Add root of trust response for aid = EAid, vlei = vlei-data, oobi = http://oobi:  <json>"]
                [endpoint_request "http://localhost:7676"
                                  (AddRootOfTrust "EAid" "vlei-data" "http://oobi")]
                1%nat),
        Raise (KeyError "msg")).
Proof.
  split; [reflexivity |]. split; [reflexivity |].
  apply (@missing_msg_after_logging
           nomsg_env None (fresh nomsg_env 0%nat)
           (AddRootOfTrust "EAid" "vlei-data" "http://oobi") 1%nat
           {| status_code := 200; json_body := Some (JObj [("status", JStr "ok")]) |}
           (JObj [("status", JStr "ok")]));
    reflexivity.
Defined.

Lemma repeated_call_same_result_witness :
  @http still_env (endpoint_request (base_of None) (CheckLogin "EAbc123")) tt
  = (tt, answer 200 (Some (JObj [("msg", JStr "ok")])))
  /\ snd (@facade still_env (CheckLogin "EAbc123")
            (fst (@facade still_env (CheckLogin "EAbc123")
                    (mkSt (VerifierClient.__init__ None) (fresh still_env tt)))))
     = Ok {| code := 200; body := JObj [("msg", JStr "ok")]; message := JStr "ok" |}.
Proof.
  split; [reflexivity |].
  destruct (@repeated_call_same_result
              still_env None (fresh still_env tt) (CheckLogin "EAbc123")
              (answer 200 (Some (JObj [("msg", JStr "ok")]))) eq_refl)
    as [Hsame _].
  rewrite Hsame. reflexivity.
Defined.

Lemma identifier_is_last_segment_iff_witness :
  dynamic_segment (CheckLogin "EAbc123") = Some "EAbc123"
  /\ contains "?" "http://localhost:7676" = false
  /\ contains "#" "http://localhost:7676" = false
  /\ exists rq : Request,
       sent (world (fst (@facade ok_env (CheckLogin "EAbc123")
                           (mkSt (VerifierClient.__init__ None) (fresh ok_env 0%nat)))))
       = [rq]
       /\ last_segment (req_url rq) = "EAbc123".
Proof.
  split; [reflexivity |]. split; [reflexivity |]. split; [reflexivity |].
  destruct (@identifier_is_last_segment_iff
              ok_env None (fresh ok_env 0%nat) (CheckLogin "EAbc123") "EAbc123"
              eq_refl eq_refl eq_refl)
    as (rq & Hsent & Hiff).
  exists rq. split; [exact Hsent |].
  apply Hiff. reflexivity.
Defined.

Lemma empty_identifier_requests_endpoint_witness :
  dynamic_segment (CheckLogin "") = Some ""
  /\ map req_url
         (sent (world (fst (@facade ok_env (CheckLogin "")
                              (mkSt (VerifierClient.__init__ None)
                                    (fresh ok_env 0%nat))))))
     = ["http://localhost:7676/authorizations/"].
Proof.
  split; [reflexivity |].
  apply (@empty_identifier_requests_endpoint
           ok_env None (fresh ok_env 0%nat) (CheckLogin "") eq_refl).
Defined.

Lemma login_payload_not_logged_witness :
  snd (@http ok_env (endpoint_request (base_of None) (Login "ESaid" "vlei-one")) 0%nat)
  = snd (@http ok_env (endpoint_request (base_of None) (Login "ESaid" "vlei-two")) 0%nat)
  /\ log (world (fst (@_VerifierServiceAdapter.credential_presentation_request
                        ok_env "ESaid" "vlei-one"
                        (mkSt (_VerifierServiceAdapter.__init__ None)
                              (fresh ok_env 0%nat)))))
     = log (world (fst (@_VerifierServiceAdapter.credential_presentation_request
                          ok_env "ESaid" "vlei-two"
                          (mkSt (_VerifierServiceAdapter.__init__ None)
                                (fresh ok_env 0%nat))))).
Proof.
  split; [reflexivity |].
  apply (@login_payload_not_logged ok_env None (fresh ok_env 0%nat)
                                   "ESaid" "vlei-one" "vlei-two").
  reflexivity.
Defined.
